(** * Member Data Q&A System: the message fetcher and the answer synthesizer

    A shallow embedding of [src/main.py]: the paginated fetch with its
    process-wide cache ([fetch_all_messages]), the prompt construction and
    truncation policy ([answer_question]) and the POST /ask handler
    ([ask_question]), followed by the properties of these functions.

    Modelling conventions.
    - Python [int] is [Z]; [len] returns a [Z].
    - Python [str] is [string]; a character is a code point below 256, held
      in an [ascii].
    - A message is a Python [dict] with string keys and string values: a
      [gmap string string]; [d.get(k, default)] is [default] applied to the
      lookup.
    - Clock readings ([time.time()]) are numbers of seconds, modelled in [Z];
      only their differences and order are used by the code.
    - Exceptions are explicit: a computation returns or raises.
    - The remote message source and the completion service are oracles passed
      as arguments, and every function returns the list of requests it has
      issued.
    - The [while True] loop runs on fuel; the theorems give the fuel that is
      enough. *)

From Stdlib Require Import ZArith QArith Lia Ascii String DecimalString List.
From stdpp Require Import base option list strings gmap.

Import ListNotations.
Local Open Scope string_scope.
Local Open Scope Z_scope.

(** ** Strings as Python uses them *)

Module PyStr.

Definition nl : string := String (ascii_of_nat 10) EmptyString.
Definition dquote : string := String (ascii_of_nat 34) EmptyString.

(** [len(s)] *)
Definition len (s : string) : Z := Z.of_nat (String.length s).

Fixpoint drop_chars (n : nat) (s : string) : string :=
  match n, s with
  | O, _ => s
  | S _, EmptyString => EmptyString
  | S n', String _ s' => drop_chars n' s'
  end.

(** [s[i:]]: a negative index counts from the end, and both ends are
    clamped to the string. *)
Definition slice_from (i : Z) (s : string) : string :=
  let n := len s in
  let start := if i <? 0 then Z.max (n + i) 0 else Z.min i n in
  drop_chars (Z.to_nat start) s.

(** [sep.join(parts)] *)
Definition join (sep : string) (parts : list string) : string :=
  String.concat sep parts.

(** The characters [str.strip()] removes, among the code points below 256:
    U+0009 to U+000D, U+001C to U+0020, U+0085 and U+00A0. *)
Definition is_space (c : ascii) : bool :=
  let n := Z.of_nat (nat_of_ascii c) in
  ((9 <=? n) && (n <=? 13)) || ((28 <=? n) && (n <=? 32))
  || (n =? 133) || (n =? 160).

Fixpoint lstrip (s : string) : string :=
  match s with
  | EmptyString => EmptyString
  | String c s' => if is_space c then lstrip s' else s
  end.

Fixpoint rstrip (s : string) : string :=
  match s with
  | EmptyString => EmptyString
  | String c s' =>
      match rstrip s' with
      | EmptyString => if is_space c then EmptyString else String c EmptyString
      | r => String c r
      end
  end.

Definition strip (s : string) : string := rstrip (lstrip s).

Fixpoint repeat_char (c : ascii) (n : nat) : string :=
  match n with
  | O => EmptyString
  | S n' => String c (repeat_char c n')
  end.

End PyStr.

(** ** Exceptions *)

Inductive exn : Type :=
| RequestException (msg : string)
    (* requests.exceptions.RequestException and its subclasses: connection
       errors, timeouts, the HTTPError of raise_for_status *)
| HTTPException (status_code : Z) (detail : string)
    (* fastapi.HTTPException *)
| OtherException (msg : string).
    (* any other subclass of Exception, with its str() *)

Inductive result (A : Type) : Type :=
| Returns (a : A)
| Raises (e : exn).
Arguments Returns {A} a.
Arguments Raises {A} e.

(** ** The answer synthesizer *)

(** A message record as the remote source delivers it. *)
Abbreviation Message := (gmap string string).

Record chat_request : Type := ChatRequest {
  model : string;
  messages : list (string * string);   (* role, content *)
  temperature : Q;
  max_tokens : Z
}.

(** A completion: the [content] of each of [response.choices], [None] when the
    service sent no text. *)
Definition completion : Type := list (option string).

(** The configured client: [client.chat.completions.create]. *)
Definition Client : Type := chat_request -> result completion.


Definition not_configured_message : string :=
  "Error: OpenAI API key is not configured. Please set your OPENAI_API_KEY in the .env file or as an environment variable. See README.md for setup instructions.".

Definition format_message (msg : Message) : string :=
  let user_name := default "Unknown" (msg !! "user_name") in
  let timestamp := default EmptyString (msg !! "timestamp") in
  let message := default EmptyString (msg !! "message") in
  "User: " ++ user_name ++ " (" ++ timestamp ++ ")" ++ PyStr.nl
    ++ "Message: " ++ message.

Definition format_context (msgs : list Message) : string :=
  PyStr.join (PyStr.nl ++ PyStr.nl) (map format_message msgs).

Definition max_context_length : Z := 100000.

Definition truncation_marker : string :=
  PyStr.nl ++ PyStr.nl ++ "[Earlier messages truncated...]".

(** Lines 113-116. *)
Definition truncate_context (context : string) : string :=
  if PyStr.len context >? max_context_length
  then PyStr.slice_from (- max_context_length) context ++ truncation_marker
  else context.

Definition prompt_head : string :=
  "You are a helpful assistant that answers questions about member data from messages." ++ PyStr.nl
  ++ PyStr.nl
  ++ "Here are the messages from various members:" ++ PyStr.nl
  ++ PyStr.nl.

Definition prompt_instructions : string :=
  PyStr.nl
  ++ PyStr.nl
  ++ "Based on the messages above, answer the following question. " ++ PyStr.nl
  ++ PyStr.nl
  ++ "IMPORTANT INSTRUCTIONS:" ++ PyStr.nl
  ++ "- Provide a concise, natural answer without explicitly citing messages or using "
       ++ PyStr.dquote ++ "Message:" ++ PyStr.dquote ++ " format" ++ PyStr.nl
  ++ "- Write in a flowing, conversational style" ++ PyStr.nl
  ++ "- If the exact information is not available in the messages, say "
       ++ PyStr.dquote ++ "I don't have that information in the available messages."
       ++ PyStr.dquote ++ PyStr.nl
  ++ "- If there is related information (e.g., mentions of car services but not car ownership), you can mention what related information exists" ++ PyStr.nl
  ++ "- Be specific but brief - avoid repeating message content verbatim" ++ PyStr.nl
  ++ "- If asking about quantities or ownership that isn't mentioned, clearly state that information is not available" ++ PyStr.nl
  ++ "- Keep answers under 3-4 sentences when possible" ++ PyStr.nl
  ++ PyStr.nl
  ++ "Question: ".

Definition prompt_tail : string :=
  PyStr.nl ++ PyStr.nl ++ "Answer:".

(** Lines 118-137: the f-string, with the context and the question spliced
    in. *)
Definition build_prompt (context question : string) : string :=
  prompt_head ++ context ++ prompt_instructions ++ question ++ prompt_tail.

Definition system_instruction : string :=
  "You are a helpful assistant that answers questions based on provided context. Provide concise, natural answers without explicitly citing messages. Write in a conversational style.".

Definition make_request (prompt : string) : chat_request :=
  {| model := "gpt-4o-mini";
     messages := [("system", system_instruction); ("user", prompt)];
     temperature := (3 # 10)%Q;
     max_tokens := 300 |}.

(** Line 150: [response.choices[0].message.content.strip()]. *)
Definition extract_answer (response : completion) : result string :=
  match response with
  | [] => Raises (OtherException "list index out of range")
  | None :: _ =>
      Raises (OtherException "'NoneType' object has no attribute 'strip'")
  | Some content :: _ => Returns (PyStr.strip content)
  end.

(** [str(e)]; what [str] gives for an HTTPException belongs to the web
    framework and is taken as an argument. *)
Definition str_exn (str_HTTPException : Z -> string -> string) (e : exn)
    : string :=
  match e with
  | RequestException msg => msg
  | HTTPException status_code detail => str_HTTPException status_code detail
  | OtherException msg => msg
  end.

Section Synthesizer.

Variable str_HTTPException : Z -> string -> string.

(** Lines 139-151, the body of the [try]. *)
Definition call_completion (create : Client) (prompt : string)
    : result string :=
  match create (make_request prompt) with
  | Returns response => extract_answer response
  | Raises e => Raises e
  end.

(** [answer_question], with the requests sent to the completion service.
    Its result is a [result] so that an exception leaving the function, if
    there were one, would show. *)
Definition answer_question (client : option Client) (question : string)
    (msgs : list Message) : result string * list chat_request :=
  match client with
  | None => (Returns not_configured_message, [])
  | Some create =>
      let context := truncate_context (format_context msgs) in
      let prompt := build_prompt context question in
      match call_completion create prompt with
      | Returns answer => (Returns answer, [make_request prompt])
      | Raises e =>
          (Returns ("Error processing question: "
                      ++ str_exn str_HTTPException e),
           [make_request prompt])
      end
  end.

End Synthesizer.

(** ** The message fetcher *)

Definition MESSAGES_API_URL : string :=
  "https://november7-730026606190.europe-west1.run.app/messages".

Definition CACHE_TTL : Z := 300.

(** [requests.get(url, params=..., timeout=...)]. *)
Record request : Type := GET {
  url : string;
  params : list (string * Z);
  timeout : Z
}.

(** The JSON object of a successful response: its [items] and [total] keys,
    [None] when the key is absent. *)
Record page_data : Type := PageData {
  items : option (list Message);
  total : option Z
}.

(** What one call of the fetcher meets: the answer of the remote source to
    each request ([requests.get], [raise_for_status] and [json] together) and
    the two readings of the clock.  A call never issues the same request
    twice, so a function of the request loses nothing. *)
Record world : Type := World {
  respond : request -> result page_data;
  clock_check : Z;   (* time.time() of line 50 *)
  clock_store : Z    (* time.time() of line 88 *)
}.

(** The process-wide cache, lines 31-32. *)
Record cache_state : Type := CacheState {
  _messages_cache : option (list Message);
  _cache_timestamp : Z
}.

Definition initial_state : cache_state :=
  {| _messages_cache := None; _cache_timestamp := 0 |}.

Inductive outcome (A : Type) : Type :=
| Done (r : result A)
| OutOfFuel.
Arguments Done {A} r.
Arguments OutOfFuel {A}.

Definition page_size : Z := 100.

Definition paged_request (page : Z) : request :=
  {| url := MESSAGES_API_URL;
     params := [("page", page); ("page_size", page_size)];
     timeout := 30 |}.

Definition plain_request : request :=
  {| url := MESSAGES_API_URL; params := []; timeout := 30 |}.

(** [data.get("items", [])] and [data.get("total", 0)]. *)
Definition get_items (data : page_data) : list Message :=
  default [] (items data).

Definition get_total (data : page_data) : Z :=
  default 0 (total data).

(** [not items] *)
Definition is_empty (l : list Message) : bool :=
  match l with
  | [] => true
  | _ :: _ => false
  end.

(** Lines 57-84: the loop, from the state [(page, all_messages)], with the
    requests it issues. *)
Fixpoint sweep (respond : request -> result page_data) (fuel : nat)
    (page : Z) (all_messages : list Message)
    : outcome (list Message) * list request :=
  match fuel with
  | O => (OutOfFuel, [])
  | S fuel' =>
      match respond (paged_request page) with
      | Returns data =>
          let items := get_items data in
          if is_empty items then
            (Done (Returns all_messages), [paged_request page])
          else
            let all_messages := (all_messages ++ items)%list in
            if Z.of_nat (length all_messages) >=? get_total data then
              (Done (Returns all_messages), [paged_request page])
            else
              let '(r, tr) := sweep respond fuel' (page + 1) all_messages in
              (r, paged_request page :: tr)
      | Raises (RequestException msg) =>
          if page =? 1 then
            match respond plain_request with
            | Returns data =>
                (Done (Returns (get_items data)),
                 [paged_request page; plain_request])
            | Raises e =>
                (Done (Raises e), [paged_request page; plain_request])
            end
          else
            (Done (Returns all_messages), [paged_request page])
      | Raises e => (Done (Raises e), [paged_request page])
      end
  end.

(** Line 49-51: does the call answer from the cache? *)
Definition cache_lookup (w : world) (use_cache : bool) (st : cache_state)
    : option (list Message) :=
  if use_cache then
    match _messages_cache st with
    | Some cached =>
        if clock_check w - _cache_timestamp st <? CACHE_TTL
        then Some cached else None
    | None => None
    end
  else None.

Definition fetch_all_messages (w : world) (fuel : nat) (use_cache : bool)
    (st : cache_state) : outcome (list Message) * cache_state * list request :=
  match cache_lookup w use_cache st with
  | Some cached => (Done (Returns cached), st, [])
  | None =>
      let '(r, tr) := sweep (respond w) fuel 1 [] in
      match r with
      | Done (Returns all_messages) =>
          (r,
           {| _messages_cache := Some all_messages;
              _cache_timestamp := clock_store w |},
           tr)
      | _ => (r, st, tr)
      end
  end.

(** ** The POST /ask handler *)

Record QuestionRequest : Type := { question : string }.
Record AnswerResponse : Type := { answer : string }.

Section Handler.

Variable str_HTTPException : Z -> string -> string.

(** Lines 184-193, the body of the [try]. *)
Definition ask_body (client : option Client) (w : world) (fuel : nat)
    (rq : QuestionRequest) (st : cache_state)
    : outcome AnswerResponse * cache_state * list request
      * list chat_request :=
  match fetch_all_messages w fuel true st with
  | (OutOfFuel, st', tr) => (OutOfFuel, st', tr, [])
  | (Done (Raises e), st', tr) => (Done (Raises e), st', tr, [])
  | (Done (Returns msgs), st', tr) =>
      if is_empty msgs then
        (Done (Raises (HTTPException 500
                         "Failed to fetch messages from the API")),
         st', tr, [])
      else
        match answer_question str_HTTPException client (question rq) msgs
        with
        | (Returns a, ctr) => (Done (Returns {| answer := a |}), st', tr, ctr)
        | (Raises e, ctr) => (Done (Raises e), st', tr, ctr)
        end
  end.

(** Lines 195-198, the two handlers.  The exception that leaves
    [ask_question] is an HTTPException: the framework answers with its
    status code and its detail. *)
Definition ask_question (client : option Client) (w : world) (fuel : nat)
    (rq : QuestionRequest) (st : cache_state)
    : outcome AnswerResponse * cache_state * list request
      * list chat_request :=
  match ask_body client w fuel rq st with
  | (Done (Raises (RequestException msg)), st', tr, ctr) =>
      (Done (Raises (HTTPException 500 ("Error fetching messages: " ++ msg))),
       st', tr, ctr)
  | (Done (Raises e), st', tr, ctr) =>
      (Done (Raises (HTTPException 500
                       ("Error processing question: "
                          ++ str_exn str_HTTPException e))),
       st', tr, ctr)
  | r => r
  end.

End Handler.

(** ** Vocabulary for pagination sweeps *)

(** The items page [p] delivers (none when the request fails). *)
Definition page_items (respond : request -> result page_data) (p : nat)
    : list Message :=
  match respond (paged_request (Z.of_nat p)) with
  | Returns data => get_items data
  | Raises _ => []
  end.

(** The items of pages 1 to [n], in page order. *)
Fixpoint collected (respond : request -> result page_data) (n : nat)
    : list Message :=
  match n with
  | O => []
  | S k => (collected respond k ++ page_items respond (S k))%list
  end.

(** Page [p] answers, with items, and the count reached stays below its
    total: the sweep goes on to page [p + 1]. *)
Definition continues (respond : request -> result page_data) (p : nat) : Prop :=
  exists data,
    respond (paged_request (Z.of_nat p)) = Returns data
    /\ get_items data <> []
    /\ Z.of_nat (length (collected respond p)) < get_total data.

(** Page [p] answers, with no items or with a count that reaches its total:
    the sweep ends at page [p]. *)
Definition stops (respond : request -> result page_data) (p : nat) : Prop :=
  exists data,
    respond (paged_request (Z.of_nat p)) = Returns data
    /\ (get_items data = []
        \/ Z.of_nat (length (collected respond p)) >= get_total data).

(** Page [p] fails with a transport error. *)
Definition fails (respond : request -> result page_data) (p : nat) : Prop :=
  exists msg,
    respond (paged_request (Z.of_nat p)) = Raises (RequestException msg).

(** A sweep that ran to its end at page [n]: every page before [n] went on,
    and page [n] met the termination condition. *)
Definition complete_sweep (respond : request -> result page_data) (n : nat)
    : Prop :=
  (forall p, (1 <= p < n)%nat -> continues respond p) /\ stops respond n.

(** A sweep cut short: pages 1 to [n] went on, [n] at least 1, and page
    [n + 1] failed with a transport error. *)
Definition partial_sweep (respond : request -> result page_data) (n : nat)
    : Prop :=
  (1 <= n)%nat
  /\ (forall p, (1 <= p <= n)%nat -> continues respond p)
  /\ fails respond (S n).

(** The first page failed with a transport error and the request without
    parameters delivered [msgs]. *)
Definition fallback_fetch (respond : request -> result page_data)
    (msgs : list Message) : Prop :=
  fails respond 1
  /\ exists data, respond plain_request = Returns data /\ msgs = get_items data.

(** The requests for pages [1] to [n]. *)
Definition page_requests (n : nat) : list request :=
  map (fun p => paged_request (Z.of_nat p)) (seq 1 n).

(** ** Concrete inputs used by the examples below *)

Module Examples.

Definition str_plain (status_code : Z) (detail : string) : string := detail.

(** A client that always answers with one choice. *)
Definition fixed_client (text : string) : Client :=
  fun _ => Returns [Some text].

(** A client whose call fails. *)
Definition failing_client (msg : string) : Client :=
  fun _ => Raises (OtherException msg).

(** One message whose body alone has 100,000 characters. *)
Definition long_history : list Message :=
  [ {[ "message" := PyStr.repeat_char "a"%char (Z.to_nat 100000) ]} ].

Definition short_history : list Message :=
  [ {[ "user_name" := "Ada"; "timestamp" := "2024-01-01";
       "message" := "I own one car." ]} ].

(** The page number a request asks for. *)
Definition page_of (rq : request) : option Z :=
  match params rq with
  | (_, page) :: _ => Some page
  | [] => None
  end.

Definition member_message (i : nat) : Message :=
  {[ "user_name" := "member"; "message" := PyStr.repeat_char "m"%char i ]}.

(** A source of 250 records that serves full pages and reports its total. *)
Definition source_250 (rq : request) : result page_data :=
  match params rq with
  | [(_, page); (_, size)] =>
      let first := Z.to_nat ((page - 1) * size) in
      let count := Nat.min (Z.to_nat size) (250 - first) in
      Returns {| items := Some (map member_message (seq first count));
                 total := Some 250 |}
  | _ => Raises (RequestException "400 Client Error")
  end.

Definition world_250 : world :=
  {| respond := source_250; clock_check := 1000; clock_store := 1003 |}.

(** A source of 3 records, one per page, whose second page times out. *)
Definition source_midfail (rq : request) : result page_data :=
  match page_of rq with
  | Some 1 =>
      Returns {| items := Some [member_message 0]; total := Some 3 |}
  | _ => Raises (RequestException "Read timed out.")
  end.

Definition world_midfail : world :=
  {| respond := source_midfail; clock_check := 1000; clock_store := 1031 |}.

(** A source that rejects paging and serves everything at once, with no
    total. *)
Definition source_unpaged (rq : request) : result page_data :=
  match page_of rq with
  | Some _ => Raises (RequestException "Connection aborted.")
  | None =>
      Returns {| items := Some [member_message 0; member_message 1];
                 total := None |}
  end.

Definition world_unpaged : world :=
  {| respond := source_unpaged; clock_check := 1000; clock_store := 1001 |}.

(** A source that is down. *)
Definition source_down (rq : request) : result page_data :=
  Raises (RequestException "503 Server Error").

Definition world_down : world :=
  {| respond := source_down; clock_check := 1000; clock_store := 1001 |}.

(** A source with nothing to deliver. *)
Definition source_empty (rq : request) : result page_data :=
  Returns {| items := Some []; total := Some 0 |}.

Definition world_empty : world :=
  {| respond := source_empty; clock_check := 1000; clock_store := 1001 |}.

(** A source whose first page carries no total. *)
Definition source_no_total (rq : request) : result page_data :=
  Returns {| items := Some [member_message 0; member_message 1];
             total := None |}.

Definition world_no_total : world :=
  {| respond := source_no_total; clock_check := 1000; clock_store := 1001 |}.

(** A cache that holds the empty sequence, stored ten seconds before
    [clock_check] of the worlds above. *)
Definition state_cached_empty : cache_state :=
  {| _messages_cache := Some []; _cache_timestamp := 990 |}.

Definition state_cached_fresh : cache_state :=
  {| _messages_cache := Some [member_message 7]; _cache_timestamp := 990 |}.

Definition state_cached_stale : cache_state :=
  {| _messages_cache := Some [member_message 7]; _cache_timestamp := 700 |}.

End Examples.

(** ** Further vocabulary and inputs *)

(** Is the exception one that line 77 catches? *)
Definition is_transport_error (e : exn) : bool :=
  match e with
  | RequestException _ => true
  | _ => false
  end.

(** The part of the prompt that does not depend on the question, at its
    longest: the fixed text around a context cut to [max_context_length]
    and followed by the marker. *)
Definition prompt_overhead : Z :=
  PyStr.len prompt_head + max_context_length + PyStr.len truncation_marker
  + PyStr.len prompt_instructions + PyStr.len prompt_tail.

(** [str(e)] of an HTTPException as the web framework defines it
    (starlette.exceptions.HTTPException.__str__): the status code, a colon, a
    space, the detail. *)
Definition starlette_str (status_code : Z) (detail : string) : string :=
  NilZero.string_of_int (Z.to_int status_code) ++ ": " ++ detail.




Module Scenarios.

(** A source that never runs dry: every page has one record and a total one
    above the page number. *)
Definition source_endless (rq : request) : result page_data :=
  match Examples.page_of rq with
  | Some page =>
      Returns {| items := Some [Examples.member_message (Z.to_nat page)];
                 total := Some (page + 1) |}
  | None => Raises (RequestException "400 Client Error")
  end.

Definition world_endless : world :=
  {| respond := source_endless; clock_check := 1000; clock_store := 1001 |}.

(** A source whose second page makes the client fail outside the transport
    layer. *)
Definition source_crash (rq : request) : result page_data :=
  match Examples.page_of rq with
  | Some 1 =>
      Returns {| items := Some [Examples.member_message 0]; total := Some 3 |}
  | _ => Raises (OtherException "'list' object has no attribute 'get'")
  end.

Definition world_crash : world :=
  {| respond := source_crash; clock_check := 1000; clock_store := 1001 |}.

(** The world two minutes after [Examples.world_250] stored its result. *)
Definition world_later : world :=
  {| respond := Examples.source_down; clock_check := 1123;
     clock_store := 1124 |}.

Definition ask_car : QuestionRequest :=
  {| question := "Does user X own a car?" |}.



End Scenarios.

(** ** Facts about slicing *)

Section SliceFacts.

Import PyStr.

Lemma length_drop_chars (n : nat) (s : string) :
  String.length (drop_chars n s) = (String.length s - n)%nat.
Proof.
  revert s; induction n as [|n IH]; intros s; simpl.
  - lia.
  - destruct s as [|c s]; simpl; [reflexivity | apply IH].
Qed.

Lemma drop_chars_split (n : nat) (s : string) :
  (n <= String.length s)%nat ->
  exists a, s = a ++ drop_chars n s /\ String.length a = n.
Proof.
  revert s; induction n as [|n IH]; intros s Hn.
  - exists EmptyString. split; reflexivity.
  - destruct s as [|c s]; simpl in Hn; [lia|].
    destruct (IH s) as (a & Hs & Ha); [lia|].
    exists (String c a). split; [|simpl; lia].
    change (String c s = String c (a ++ drop_chars n s)).
    f_equal. exact Hs.
Qed.

(** [s[-k:]] of a string longer than [k] is its suffix of length [k]. *)
Lemma slice_from_suffix (k : Z) (s : string) :
  0 < k -> k < len s ->
  exists dropped,
    s = dropped ++ slice_from (- k) s
    /\ len (slice_from (- k) s) = k
    /\ len dropped = len s - k.
Proof.
  intros Hk Hlen. unfold slice_from.
  assert (Hneg : (- k <? 0) = true) by (apply Z.ltb_lt; lia).
  rewrite Hneg. rewrite Z.max_l by lia.
  unfold len in *.
  destruct (drop_chars_split (Z.to_nat (Z.of_nat (String.length s) + - k)) s)
    as (a & Hs & Ha); [lia|].
  exists a. split; [exact Hs|].
  rewrite length_drop_chars. lia.
Qed.

Lemma slice_from_short (k : Z) (s : string) :
  0 < k -> len s <= k -> slice_from (- k) s = s.
Proof.
  intros Hk Hlen. unfold slice_from.
  assert (Hneg : (- k <? 0) = true) by (apply Z.ltb_lt; lia).
  rewrite Hneg. rewrite Z.max_r by lia. reflexivity.
Qed.

End SliceFacts.

(** ** The answer synthesizer: properties *)

Lemma answer_question_submits (str : Z -> string -> string) (create : Client)
    (question : string) (msgs : list Message) :
  snd (answer_question str (Some create) question msgs)
  = [make_request
       (build_prompt (truncate_context (format_context msgs)) question)].
Proof.
  unfold answer_question.
  destruct (call_completion _ _); reflexivity.
Qed.

(** C1, as the code has it: when the joined context is longer than 100,000
    characters, the context part of the one prompt submitted is the last
    100,000 characters of the joined context followed by the truncation
    marker, and nothing else of the context; a context of at most 100,000
    characters is submitted as it is, with no marker. *)
Theorem answer_question_keeps_tail_then_marker
    (str : Z -> string -> string) (create : Client) (question : string)
    (msgs : list Message) :
  let context := format_context msgs in
  exists submitted,
    snd (answer_question str (Some create) question msgs)
    = [make_request (build_prompt submitted question)]
    /\ (PyStr.len context > max_context_length ->
        exists dropped kept,
          context = dropped ++ kept
          /\ PyStr.len kept = max_context_length
          /\ submitted = kept ++ truncation_marker)
    /\ (PyStr.len context <= max_context_length -> submitted = context).
Proof.
  intros context.
  exists (truncate_context context). split; [apply answer_question_submits|].
  unfold truncate_context. split; intros Hlen.
  - assert (Hgt : (PyStr.len context >? max_context_length) = true)
      by (apply Z.gtb_lt; lia).
    rewrite Hgt.
    destruct (slice_from_suffix max_context_length context)
      as (dropped & Hs & Hk & _); [reflexivity | lia |].
    exists dropped, (PyStr.slice_from (- max_context_length) context).
    repeat split; assumption.
  - destruct (PyStr.len context >? max_context_length) eqn:Hgt;
      [apply Z.gtb_lt in Hgt; lia | reflexivity].
Qed.

Lemma answer_question_keeps_tail_then_marker_witness :
  exists dropped kept,
    format_context Examples.long_history = dropped ++ kept
    /\ PyStr.len kept = max_context_length
    /\ snd (answer_question Examples.str_plain
              (Some (Examples.fixed_client "No.")) "Who owns a car?"
              Examples.long_history)
       = [make_request
            (build_prompt (kept ++ truncation_marker) "Who owns a car?")].
Proof.
  destruct (answer_question_keeps_tail_then_marker Examples.str_plain
              (Examples.fixed_client "No.") "Who owns a car?"
              Examples.long_history) as (submitted & Hsub & Hlong & _).
  destruct Hlong as (dropped & kept & Hctx & Hlen & Hs);
    [vm_compute; reflexivity|].
  exists dropped, kept. rewrite <- Hs. auto.
Defined.

(** C1, as the claim words it (the marker before the kept characters), fails:
    for a context of 100,026 characters the submitted prompt is not the one
    that has the marker in front of the last 100,000 characters. *)
Lemma truncation_marker_is_not_prepended :
  PyStr.len (format_context Examples.long_history) > max_context_length
  /\ snd (answer_question Examples.str_plain
            (Some (Examples.fixed_client "No.")) "Who owns a car?"
            Examples.long_history)
     <> [make_request
           (build_prompt
              (truncation_marker
                 ++ PyStr.slice_from (- max_context_length)
                      (format_context Examples.long_history))
              "Who owns a car?")].
Proof.
  split; [vm_compute; reflexivity|].
  rewrite answer_question_submits. intros H.
  apply (f_equal (fun l =>
           match l with
           | [rq] =>
               match messages rq with
               | [_; (_, prompt)] =>
                   String.get (String.length prompt_head) prompt
               | _ => None
               end
           | _ => None
           end)) in H.
  vm_compute in H. discriminate H.
Qed.

(** C7: [answer_question] always returns a string, and when the call of the
    completion service raises, or the handling of its response does, the
    string returned is "Error processing question: " followed by the error's
    text. *)
Theorem answer_question_contains_failures
    (str : Z -> string -> string) (client : option Client)
    (question : string) (msgs : list Message) :
  let prompt :=
    build_prompt (truncate_context (format_context msgs)) question in
  (exists text,
      fst (answer_question str client question msgs) = Returns text)
  /\ (forall create e,
        client = Some create ->
        create (make_request prompt) = Raises e ->
        fst (answer_question str client question msgs)
        = Returns ("Error processing question: " ++ str_exn str e))
  /\ (forall create response e,
        client = Some create ->
        create (make_request prompt) = Returns response ->
        extract_answer response = Raises e ->
        fst (answer_question str client question msgs)
        = Returns ("Error processing question: " ++ str_exn str e)).
Proof.
  intros prompt. repeat split.
  - destruct client as [create|]; simpl; [|eauto].
    destruct (call_completion _ _); simpl; eauto.
  - intros create e -> Hraise. unfold answer_question, call_completion.
    fold prompt. rewrite Hraise. reflexivity.
  - intros create response e -> Hret Hextract.
    unfold answer_question, call_completion.
    fold prompt. rewrite Hret, Hextract. reflexivity.
Qed.

Lemma answer_question_contains_failures_witness :
  fst (answer_question Examples.str_plain
         (Some (Examples.failing_client "Connection error."))
         "Who owns a car?" Examples.short_history)
  = Returns "Error processing question: Connection error."
  /\ fst (answer_question Examples.str_plain
            (Some (fun _ => Returns [])) "Who owns a car?"
            Examples.short_history)
     = Returns "Error processing question: list index out of range".
Proof.
  split.
  - apply (proj1 (proj2 (answer_question_contains_failures
                           Examples.str_plain
                           (Some (Examples.failing_client "Connection error."))
                           "Who owns a car?" Examples.short_history))
             (Examples.failing_client "Connection error.")
             (OtherException "Connection error."));
      reflexivity.
  - apply (proj2 (proj2 (answer_question_contains_failures
                           Examples.str_plain
                           (Some (fun _ => Returns []))
                           "Who owns a car?" Examples.short_history))
             (fun _ => Returns []) [] (OtherException "list index out of range"));
      reflexivity.
Defined.


(** ** The loop, step by step *)

Section SweepFacts.

Variable respond : request -> result page_data.

Lemma sweep_unfold (fuel : nat) (page : Z) (all_messages : list Message) :
  sweep respond (S fuel) page all_messages
  = match respond (paged_request page) with
    | Returns data =>
        if is_empty (get_items data) then
          (Done (Returns all_messages), [paged_request page])
        else if Z.of_nat (length (all_messages ++ get_items data))
                >=? get_total data then
          (Done (Returns (all_messages ++ get_items data)%list),
           [paged_request page])
        else
          let '(r, tr) :=
            sweep respond fuel (page + 1) (all_messages ++ get_items data) in
          (r, paged_request page :: tr)
    | Raises (RequestException msg) =>
        if page =? 1 then
          match respond plain_request with
          | Returns data =>
              (Done (Returns (get_items data)),
               [paged_request page; plain_request])
          | Raises e => (Done (Raises e), [paged_request page; plain_request])
          end
        else (Done (Returns all_messages), [paged_request page])
    | Raises e => (Done (Raises e), [paged_request page])
    end.
Proof. reflexivity. Qed.

Lemma is_empty_true (l : list Message) : is_empty l = true <-> l = [].
Proof. destruct l; simpl; split; congruence. Qed.

Lemma is_empty_false (l : list Message) : is_empty l = false <-> l <> [].
Proof. destruct l; simpl; split; congruence. Qed.

Lemma collected_S (k : nat) (data : page_data) :
  respond (paged_request (Z.of_nat (S k))) = Returns data ->
  collected respond (S k) = (collected respond k ++ get_items data)%list.
Proof.
  intros Hd. cbn [collected]. unfold page_items. rewrite Hd. reflexivity.
Qed.

Lemma sweep_first_request (fuel : nat) (page : Z) (acc : list Message) :
  exists r tr,
    sweep respond (S fuel) page acc = (r, paged_request page :: tr).
Proof.
  rewrite sweep_unfold.
  destruct (respond (paged_request page)) as [data|[msg|sc d|msg]]; eauto.
  - destruct (is_empty _); eauto.
    destruct (_ >=? _); eauto.
    destruct (sweep _ _ _ _) as [r tr]; eauto.
  - destruct (page =? 1); eauto.
    destruct (respond plain_request); eauto.
Qed.

Lemma sweep_stop (fuel k : nat) :
  stops respond (S k) ->
  sweep respond (S fuel) (Z.of_nat (S k)) (collected respond k)
  = (Done (Returns (collected respond (S k))),
     [paged_request (Z.of_nat (S k))]).
Proof.
  intros (data & Hd & Hstop).
  rewrite sweep_unfold, Hd, (collected_S k data Hd).
  destruct (is_empty (get_items data)) eqn:He.
  - apply is_empty_true in He. rewrite He, app_nil_r. reflexivity.
  - destruct Hstop as [Hnil | Hcount].
    + apply is_empty_false in He. contradiction.
    + rewrite (collected_S k data Hd) in Hcount.
      destruct (_ >=? _) eqn:Hge; [reflexivity|].
      rewrite Z.geb_leb in Hge. apply Z.leb_gt in Hge. lia.
Qed.

Lemma sweep_continue (fuel k : nat) :
  continues respond (S k) ->
  sweep respond (S fuel) (Z.of_nat (S k)) (collected respond k)
  = (let '(r, tr) :=
       sweep respond fuel (Z.of_nat (S (S k))) (collected respond (S k)) in
     (r, paged_request (Z.of_nat (S k)) :: tr)).
Proof.
  intros (data & Hd & Hitems & Hcount).
  rewrite sweep_unfold, Hd.
  rewrite (collected_S k data Hd) in *.
  apply is_empty_false in Hitems. rewrite Hitems.
  destruct (_ >=? _) eqn:Hge.
  - apply Z.geb_le in Hge. lia.
  - replace (Z.of_nat (S k) + 1) with (Z.of_nat (S (S k))) by lia.
    reflexivity.
Qed.

Lemma sweep_fail_later (fuel k : nat) (acc : list Message) :
  (1 <= k)%nat -> fails respond (S k) ->
  sweep respond (S fuel) (Z.of_nat (S k)) acc
  = (Done (Returns acc), [paged_request (Z.of_nat (S k))]).
Proof.
  intros Hk (msg & Hfail). rewrite sweep_unfold, Hfail.
  destruct (Z.of_nat (S k) =? 1) eqn:Hp; [|reflexivity].
  apply Z.eqb_eq in Hp. lia.
Qed.

Lemma sweep_fail_first (fuel : nat) (acc : list Message) :
  fails respond 1 ->
  sweep respond (S fuel) 1 acc
  = match respond plain_request with
    | Returns data =>
        (Done (Returns (get_items data)), [paged_request 1; plain_request])
    | Raises e => (Done (Raises e), [paged_request 1; plain_request])
    end.
Proof.
  intros (msg & Hfail). change (Z.of_nat 1) with 1 in Hfail.
  rewrite sweep_unfold, Hfail. reflexivity.
Qed.

(** From page [k + 1]: [j] pages go on, the next one ends the sweep. *)
Lemma sweep_runs (j : nat) :
  forall (k fuel : nat),
    (forall p, (k < p <= k + j)%nat -> continues respond p) ->
    stops respond (S (k + j)) ->
    (j < fuel)%nat ->
    sweep respond fuel (Z.of_nat (S k)) (collected respond k)
    = (Done (Returns (collected respond (S (k + j)))),
       map (fun p => paged_request (Z.of_nat p)) (seq (S k) (S j))).
Proof.
  induction j as [|j IH]; intros k fuel Hgo Hstop Hfuel.
  - destruct fuel as [|fuel]; [lia|].
    rewrite Nat.add_0_r in *. apply sweep_stop; assumption.
  - destruct fuel as [|fuel]; [lia|].
    rewrite sweep_continue by (apply Hgo; lia).
    rewrite (IH (S k) fuel).
    + replace (S k + j)%nat with (k + S j)%nat by lia. reflexivity.
    + intros p Hp. apply Hgo. lia.
    + replace (S k + j)%nat with (k + S j)%nat by lia. exact Hstop.
    + lia.
Qed.

(** Every way the loop can return a sequence. *)
Lemma sweep_returns_inv (fuel : nat) :
  forall (k : nat) (msgs : list Message) (tr : list request),
    (forall p, (1 <= p <= k)%nat -> continues respond p) ->
    sweep respond fuel (Z.of_nat (S k)) (collected respond k)
    = (Done (Returns msgs), tr) ->
    (exists n, (1 <= n)%nat /\ complete_sweep respond n
               /\ msgs = collected respond n)
    \/ fallback_fetch respond msgs
    \/ (exists n, partial_sweep respond n /\ msgs = collected respond n).
Proof.
  induction fuel as [|fuel IH]; intros k msgs tr Hgo Hrun;
    [discriminate Hrun|].
  rewrite sweep_unfold in Hrun.
  destruct (respond (paged_request (Z.of_nat (S k))))
    as [data|[msg|sc d|msg]] eqn:Hd.
  - destruct (is_empty (get_items data)) eqn:He.
    + injection Hrun as <- _. left. exists (S k).
      apply is_empty_true in He.
      split; [lia|]. split.
      * split; [intros p Hp; apply Hgo; lia|].
        exists data. auto.
      * rewrite (collected_S k data Hd), He, app_nil_r. reflexivity.
    + destruct (_ >=? _) eqn:Hge.
      * injection Hrun as <- _. left. exists (S k).
        split; [lia|]. split.
        -- split; [intros p Hp; apply Hgo; lia|].
           exists data. split; [exact Hd|]. right.
           rewrite (collected_S k data Hd). apply Z.geb_le in Hge. lia.
        -- symmetry. apply collected_S. exact Hd.
      * destruct (sweep respond fuel _ _) as [r tr'] eqn:Hrec.
        injection Hrun as -> _.
        replace (Z.of_nat (S k) + 1) with (Z.of_nat (S (S k))) in Hrec by lia.
        rewrite <- (collected_S k data Hd) in Hrec.
        apply (IH (S k) msgs tr'); [|exact Hrec].
        intros p Hp. destruct (Nat.eq_dec p (S k)) as [->|Hne];
          [|apply Hgo; lia].
        exists data. split; [exact Hd|]. split.
        -- apply is_empty_false. exact He.
        -- rewrite (collected_S k data Hd).
           rewrite Z.geb_leb in Hge. apply Z.leb_gt in Hge. lia.
  - destruct (Z.of_nat (S k) =? 1) eqn:Hp.
    + apply Z.eqb_eq in Hp. assert (k = 0)%nat as -> by lia.
      destruct (respond plain_request) as [data|e] eqn:Hplain;
        [|discriminate Hrun].
      injection Hrun as <- _. right; left.
      split; [exists msg; exact Hd | exists data; auto].
    + apply Z.eqb_neq in Hp. injection Hrun as <- _. right; right.
      exists k. split; [|reflexivity].
      split; [lia|]. split; [exact Hgo | exists msg; exact Hd].
  - discriminate Hrun.
  - discriminate Hrun.
Qed.

End SweepFacts.

(** ** The message fetcher: properties *)

Lemma cache_lookup_miss (w : world) (use_cache : bool) (st : cache_state) :
  cache_lookup w use_cache st = None
  <-> use_cache = false
      \/ _messages_cache st = None
      \/ clock_check w - _cache_timestamp st >= CACHE_TTL.
Proof.
  unfold cache_lookup. destruct use_cache; [|intuition].
  destruct (_messages_cache st) as [cached|]; [|intuition].
  destruct (_ <? _) eqn:Hfresh.
  - apply Z.ltb_lt in Hfresh. split; [discriminate|].
    intros [H|[H|H]]; [discriminate H | discriminate H | lia].
  - apply Z.ltb_ge in Hfresh. split; [|reflexivity].
    intros _. right; right. lia.
Qed.

Lemma cache_lookup_hit (w : world) (st : cache_state)
    (cached : list Message) :
  _messages_cache st = Some cached ->
  clock_check w - _cache_timestamp st < CACHE_TTL ->
  cache_lookup w true st = Some cached.
Proof.
  intros Hc Hfresh. unfold cache_lookup. rewrite Hc.
  apply Z.ltb_lt in Hfresh. rewrite Hfresh. reflexivity.
Qed.

Lemma fetch_miss (w : world) (fuel : nat) (use_cache : bool)
    (st : cache_state) :
  cache_lookup w use_cache st = None ->
  fetch_all_messages w fuel use_cache st
  = (let '(r, tr) := sweep (respond w) fuel 1 [] in
     match r with
     | Done (Returns all_messages) =>
         (r,
          {| _messages_cache := Some all_messages;
             _cache_timestamp := clock_store w |},
          tr)
     | _ => (r, st, tr)
     end).
Proof. intros Hmiss. unfold fetch_all_messages. rewrite Hmiss. reflexivity. Qed.

Lemma collected_concat (respond : request -> result page_data) (n : nat) :
  collected respond n = concat (map (page_items respond) (seq 1 n)).
Proof.
  induction n as [|n IH]; [reflexivity|].
  rewrite seq_S, map_app, concat_app. cbn [collected]. rewrite IH.
  simpl. rewrite app_nil_r. reflexivity.
Qed.

(** C5: a sweep asks for pages 1, 2, 3, ... with [page_size] 100, the
    sequence it returns is the items of the pages in page order, and it ends
    at the first page that has no items or brings the count to the total or
    beyond; a source of 250 records served in full pages is asked for pages
    1, 2 and 3, and no more. *)
Theorem sweep_requests_pages_in_order :
  (forall (w : world) (fuel : nat) (use_cache : bool) (st : cache_state)
          (n : nat),
      cache_lookup w use_cache st = None ->
      (forall p, (1 <= p <= n)%nat -> continues (respond w) p) ->
      stops (respond w) (S n) ->
      (n < fuel)%nat ->
      fetch_all_messages w fuel use_cache st
      = (Done (Returns (collected (respond w) (S n))),
         {| _messages_cache := Some (collected (respond w) (S n));
            _cache_timestamp := clock_store w |},
         page_requests (S n)))
  /\ (forall respond n,
        collected respond n = concat (map (page_items respond) (seq 1 n)))
  /\ (forall page,
        paged_request page
        = {| url := MESSAGES_API_URL;
             params := [("page", page); ("page_size", 100)];
             timeout := 30 |})
  /\ fetch_all_messages Examples.world_250 3 true initial_state
     = (Done (Returns (map Examples.member_message (seq 0 250))),
        {| _messages_cache := Some (map Examples.member_message (seq 0 250));
           _cache_timestamp := 1003 |},
        [paged_request 1; paged_request 2; paged_request 3]).
Proof.
  split; [|split; [|split]].
  - intros w fuel use_cache st n Hmiss Hgo Hstop Hfuel.
    rewrite (fetch_miss _ _ _ _ Hmiss).
    change 1 with (Z.of_nat 1) at 1.
    change (@nil Message) with (collected (respond w) 0).
    rewrite (sweep_runs (respond w) n 0 fuel); try assumption.
    reflexivity.
  - apply collected_concat.
  - reflexivity.
  - reflexivity.
Qed.

Lemma sweep_requests_pages_in_order_witness :
  fetch_all_messages Examples.world_250 7 false Examples.state_cached_fresh
  = (Done (Returns (collected Examples.source_250 3)),
     {| _messages_cache := Some (collected Examples.source_250 3);
        _cache_timestamp := 1003 |},
     page_requests 3).
Proof.
  apply (proj1 sweep_requests_pages_in_order
           Examples.world_250 7%nat false Examples.state_cached_fresh 2%nat).
  - reflexivity.
  - intros p Hp.
    destruct p as [|[|[|p]]]; try lia;
      (eexists; split; [reflexivity|]; split;
       [apply is_empty_false; reflexivity | vm_compute; reflexivity]).
  - eexists; split; [reflexivity|]. right. vm_compute. discriminate.
  - lia.
Defined.

(** C9: a page whose response has no [total] counts as [total = 0]: the
    loop ends on that page, whatever was accumulated before, after this one
    request; and when the first page has items and no [total], the fetch
    returns exactly the items of the first page. *)
Theorem missing_total_ends_sweep :
  (forall data, total data = None -> get_total data = 0)
  /\ (forall respond fuel page all_messages data,
        respond (paged_request page) = Returns data ->
        total data = None ->
        sweep respond (S fuel) page all_messages
        = (Done (Returns (all_messages ++ get_items data)%list),
           [paged_request page]))
  /\ (forall w fuel use_cache st data,
        cache_lookup w use_cache st = None ->
        respond w (paged_request 1) = Returns data ->
        total data = None ->
        get_items data <> [] ->
        fetch_all_messages w (S fuel) use_cache st
        = (Done (Returns (get_items data)),
           {| _messages_cache := Some (get_items data);
              _cache_timestamp := clock_store w |},
           [paged_request 1])).
Proof.
  assert (Hzero : forall data, total data = None -> get_total data = 0)
    by (intros data Ht; unfold get_total; rewrite Ht; reflexivity).
  assert (Hloop : forall respond fuel page all_messages data,
             respond (paged_request page) = Returns data ->
             total data = None ->
             sweep respond (S fuel) page all_messages
             = (Done (Returns (all_messages ++ get_items data)%list),
                [paged_request page])).
  { intros respond fuel page all_messages data Hd Ht.
    rewrite sweep_unfold, Hd, (Hzero data Ht).
    destruct (is_empty (get_items data)) eqn:He.
    - apply is_empty_true in He. rewrite He, app_nil_r. reflexivity.
    - destruct (_ >=? 0) eqn:Hge; [reflexivity|].
      rewrite Z.geb_leb in Hge. apply Z.leb_gt in Hge. lia. }
  split; [exact Hzero|]. split; [exact Hloop|].
  intros w fuel use_cache st data Hmiss Hd Ht _.
  rewrite (fetch_miss _ _ _ _ Hmiss), (Hloop _ fuel 1 [] data Hd Ht).
  reflexivity.
Qed.

Lemma missing_total_ends_sweep_witness :
  fetch_all_messages Examples.world_no_total 1 true initial_state
  = (Done (Returns [Examples.member_message 0; Examples.member_message 1]),
     {| _messages_cache :=
          Some [Examples.member_message 0; Examples.member_message 1];
        _cache_timestamp := 1001 |},
     [paged_request 1]).
Proof.
  apply (proj2 (proj2 missing_total_ends_sweep)
           Examples.world_no_total 0%nat true initial_state
           {| items := Some [Examples.member_message 0;
                             Examples.member_message 1];
              total := None |}).
  - reflexivity.
  - reflexivity.
  - reflexivity.
  - discriminate.
Defined.

(** C4: when the request for page 1 raises a transport error, the fetch
    issues one more request, to the same URL and without parameters, and
    nothing after it; when that request succeeds, its [items] (the empty
    sequence when the key is absent) are the result. *)
Theorem first_page_failure_falls_back
    (w : world) (fuel : nat) (use_cache : bool) (st : cache_state)
    (msg : string) (data : page_data) :
  cache_lookup w use_cache st = None ->
  respond w (paged_request 1) = Raises (RequestException msg) ->
  respond w plain_request = Returns data ->
  fetch_all_messages w (S fuel) use_cache st
  = (Done (Returns (default [] (items data))),
     {| _messages_cache := Some (default [] (items data));
        _cache_timestamp := clock_store w |},
     [paged_request 1; plain_request])
  /\ params plain_request = []
  /\ url plain_request = url (paged_request 1).
Proof.
  intros Hmiss Hfail Hplain. split; [|split; reflexivity].
  rewrite (fetch_miss _ _ _ _ Hmiss).
  rewrite sweep_fail_first by (exists msg; exact Hfail).
  rewrite Hplain. reflexivity.
Qed.

Lemma first_page_failure_falls_back_witness :
  fetch_all_messages Examples.world_unpaged 4 true initial_state
  = (Done (Returns [Examples.member_message 0; Examples.member_message 1]),
     {| _messages_cache :=
          Some [Examples.member_message 0; Examples.member_message 1];
        _cache_timestamp := 1001 |},
     [paged_request 1; plain_request]).
Proof.
  apply (first_page_failure_falls_back Examples.world_unpaged 3 true
           initial_state "Connection aborted."
           {| items := Some [Examples.member_message 0;
                             Examples.member_message 1];
              total := None |});
    reflexivity.
Defined.

(** C10: when the request for page 1 raises a transport error and the
    request without parameters raises too, the fetch raises that second
    exception and the cache, sequence and timestamp, is as it was. *)
Theorem failed_fallback_leaves_cache
    (w : world) (fuel : nat) (use_cache : bool) (st : cache_state)
    (msg : string) (e : exn) :
  cache_lookup w use_cache st = None ->
  respond w (paged_request 1) = Raises (RequestException msg) ->
  respond w plain_request = Raises e ->
  fetch_all_messages w (S fuel) use_cache st
  = (Done (Raises e), st, [paged_request 1; plain_request]).
Proof.
  intros Hmiss Hfail Hplain.
  rewrite (fetch_miss _ _ _ _ Hmiss).
  rewrite sweep_fail_first by (exists msg; exact Hfail).
  rewrite Hplain. reflexivity.
Qed.

Lemma failed_fallback_leaves_cache_witness :
  fetch_all_messages Examples.world_down 4 true Examples.state_cached_stale
  = (Done (Raises (RequestException "503 Server Error")),
     Examples.state_cached_stale, [paged_request 1; plain_request]).
Proof.
  apply (failed_fallback_leaves_cache Examples.world_down 3 true
           Examples.state_cached_stale "503 Server Error"
           (RequestException "503 Server Error"));
    reflexivity.
Defined.

(** C6, as the code has it: with [use_cache] true, a cache that has been
    filled (with any sequence, the empty one included) and is younger than 300
    seconds answers the call, and no request is issued; when [use_cache] is
    false, the cache has never been filled, or its age is 300 seconds or
    more, the call runs a sweep, whose first request is page 1. *)
Theorem cache_answers_when_filled_and_fresh
    (w : world) (fuel : nat) (use_cache : bool) (st : cache_state) :
  (forall cached,
      use_cache = true ->
      _messages_cache st = Some cached ->
      clock_check w - _cache_timestamp st < CACHE_TTL ->
      fetch_all_messages w fuel use_cache st = (Done (Returns cached), st, []))
  /\ (use_cache = false
      \/ _messages_cache st = None
      \/ clock_check w - _cache_timestamp st >= CACHE_TTL ->
      exists r st' tr,
        fetch_all_messages w (S fuel) use_cache st
        = (r, st', paged_request 1 :: tr)
        /\ sweep (respond w) (S fuel) 1 [] = (r, paged_request 1 :: tr)).
Proof.
  split.
  - intros cached -> Hc Hfresh. unfold fetch_all_messages.
    rewrite (cache_lookup_hit w st cached Hc Hfresh). reflexivity.
  - intros Hmiss. apply cache_lookup_miss in Hmiss.
    rewrite (fetch_miss _ _ _ _ Hmiss).
    destruct (sweep_first_request (respond w) fuel 1 []) as (r & tr & Hrun).
    rewrite Hrun.
    destruct r as [[all_messages|e]|]; eauto.
Qed.

Lemma cache_answers_when_filled_and_fresh_witness :
  fetch_all_messages Examples.world_250 3 true Examples.state_cached_fresh
  = (Done (Returns [Examples.member_message 7]),
     Examples.state_cached_fresh, [])
  /\ exists r st' tr,
       fetch_all_messages Examples.world_250 3 true Examples.state_cached_stale
       = (r, st', paged_request 1 :: tr)
       /\ sweep (respond Examples.world_250) 3 1 []
          = (r, paged_request 1 :: tr).
Proof.
  split.
  - apply (proj1 (cache_answers_when_filled_and_fresh Examples.world_250 3
                    true Examples.state_cached_fresh)
             [Examples.member_message 7]);
      reflexivity.
  - apply (proj2 (cache_answers_when_filled_and_fresh Examples.world_250 2
                    true Examples.state_cached_stale)).
    right; right. vm_compute. discriminate.
Defined.

(** C6, as the claim words it, fails: a cache that holds the empty sequence,
    stored ten seconds ago, holds no non-empty sequence, and yet the call
    answers from it and asks the source, which has 250 records, for
    nothing. *)
Lemma cached_empty_sequence_is_served :
  _messages_cache Examples.state_cached_empty = Some []
  /\ clock_check Examples.world_250
       - _cache_timestamp Examples.state_cached_empty = 10
  /\ fetch_all_messages Examples.world_250 3 true Examples.state_cached_empty
     = (Done (Returns []), Examples.state_cached_empty, [])
  /\ fetch_all_messages Examples.world_250 3 true initial_state
     = (Done (Returns (map Examples.member_message (seq 0 250))),
        {| _messages_cache := Some (map Examples.member_message (seq 0 250));
           _cache_timestamp := 1003 |},
        [paged_request 1; paged_request 2; paged_request 3]).
Proof. repeat split. Qed.

(** C2, as the code has it: a call that ends either leaves the cache as it
    was (it answered from the cache, or it raised), or stores exactly the
    sequence it returns, with the time of the store; that sequence is the
    result of a complete sweep, or the items of the request without
    parameters after page 1 failed, or, when a page after the first failed
    with a transport error, the items of the pages before it. *)
Theorem cache_holds_what_the_call_returned
    (w : world) (fuel : nat) (use_cache : bool) (st : cache_state)
    (r : result (list Message)) (st' : cache_state) (tr : list request) :
  fetch_all_messages w fuel use_cache st = (Done r, st', tr) ->
  (st' = st /\ (tr = [] \/ exists e, r = Raises e))
  \/ (exists msgs,
         r = Returns msgs
         /\ st' = {| _messages_cache := Some msgs;
                     _cache_timestamp := clock_store w |}
         /\ ((exists n, (1 <= n)%nat /\ complete_sweep (respond w) n
                        /\ msgs = collected (respond w) n)
             \/ fallback_fetch (respond w) msgs
             \/ (exists n, partial_sweep (respond w) n
                           /\ msgs = collected (respond w) n))).
Proof.
  unfold fetch_all_messages.
  destruct (cache_lookup w use_cache st) as [cached|] eqn:Hlook.
  - intros H. injection H as <- <- <-. left. auto.
  - destruct (sweep (respond w) fuel 1 []) as [r0 tr0] eqn:Hrun.
    destruct r0 as [[msgs|e]|]; intros H; [| |discriminate H].
    + injection H as <- <- <-. right. exists msgs.
      split; [reflexivity|]. split; [reflexivity|].
      apply (sweep_returns_inv (respond w) fuel 0%nat msgs tr0);
        [intros p Hp; lia | exact Hrun].
    + injection H as <- <- <-. left. eauto.
Qed.

Lemma cache_holds_what_the_call_returned_witness :
  (exists n, (1 <= n)%nat
             /\ complete_sweep Examples.source_midfail n
             /\ [Examples.member_message 0]
                = collected Examples.source_midfail n)
  \/ fallback_fetch Examples.source_midfail [Examples.member_message 0]
  \/ (exists n, partial_sweep Examples.source_midfail n
                /\ [Examples.member_message 0]
                   = collected Examples.source_midfail n).
Proof.
  destruct (cache_holds_what_the_call_returned Examples.world_midfail 5 true
              initial_state (Returns [Examples.member_message 0])
              {| _messages_cache := Some [Examples.member_message 0];
                 _cache_timestamp := 1031 |}
              [paged_request 1; paged_request 2] eq_refl)
    as [[Hsame _] | (msgs & Hr & _ & Hkind)].
  - discriminate Hsame.
  - injection Hr as <-. exact Hkind.
Defined.

(** C2, as the claim words it, fails: of a source whose second page times
    out, the call stores the items of page 1 alone in the cache, and no
    complete sweep of that source exists. *)
Lemma partial_sweep_is_cached :
  fetch_all_messages Examples.world_midfail 5 true initial_state
  = (Done (Returns [Examples.member_message 0]),
     {| _messages_cache := Some [Examples.member_message 0];
        _cache_timestamp := 1031 |},
     [paged_request 1; paged_request 2])
  /\ partial_sweep (respond Examples.world_midfail) 1
  /\ [Examples.member_message 0]
     = collected (respond Examples.world_midfail) 1
  /\ ~ (exists n, (1 <= n)%nat
                  /\ complete_sweep (respond Examples.world_midfail) n).
Proof.
  split; [reflexivity|]. split; [|split; [reflexivity|]].
  - split; [lia|]. split.
    + intros p Hp. assert (p = 1%nat) as -> by lia.
      eexists. split; [reflexivity|]. split.
      * apply is_empty_false. reflexivity.
      * vm_compute. reflexivity.
    + eexists. reflexivity.
  - intros (n & Hn & Hgo & Hstop).
    assert (Hpage2 : forall data,
               respond Examples.world_midfail (paged_request (Z.of_nat 2))
               <> Returns data) by (intros data; discriminate).
    destruct n as [|[|[|n]]].
    + lia.
    + destruct Hstop as (data & Hd & Hend).
      injection Hd as <-.
      destruct Hend as [Hnil | Hcount]; [discriminate Hnil|].
      vm_compute in Hcount. apply Hcount. reflexivity.
    + destruct Hstop as (data & Hd & _). exact (Hpage2 data Hd).
    + destruct (Hgo 2%nat) as (data & Hd & _); [lia|].
      exact (Hpage2 data Hd).
Qed.

(** ** The POST /ask handler: properties *)

(** C3: when the fetch step ends with an empty sequence, the handler answers
    with status 500 and a detail that names the fetch failure, and sends
    nothing to the completion service.  The exception of line 188 is caught
    by the handler of line 197, and the one that leaves is that of line 198:
    its detail is "Error processing question: " followed by the text of the
    first, which with the framework's [str] reads "500: Failed to fetch
    messages from the API". *)
Theorem empty_fetch_answers_500
    (client : option Client) (w : world) (fuel : nat) (rq : QuestionRequest)
    (st st' : cache_state) (tr : list request) :
  fetch_all_messages w fuel true st = (Done (Returns []), st', tr) ->
  ask_question starlette_str client w fuel rq st
  = (Done (Raises (HTTPException 500
                     "Error processing question: 500: Failed to fetch messages from the API")),
     st', tr, [])
  /\ (exists before,
        "Error processing question: 500: Failed to fetch messages from the API"
        = before ++ "Failed to fetch messages from the API")
  /\ (forall str,
        ask_body str client w fuel rq st
        = (Done (Raises (HTTPException 500
                           "Failed to fetch messages from the API")),
           st', tr, [])
        /\ ask_question str client w fuel rq st
           = (Done (Raises (HTTPException 500
                              ("Error processing question: "
                                 ++ str 500
                                      "Failed to fetch messages from the API"))),
              st', tr, [])).
Proof.
  intros Hfetch.
  assert (Hbody : forall str,
             ask_body str client w fuel rq st
             = (Done (Raises (HTTPException 500
                                "Failed to fetch messages from the API")),
                st', tr, []))
    by (intros str; unfold ask_body; rewrite Hfetch; reflexivity).
  assert (Hask : forall str,
             ask_question str client w fuel rq st
             = (Done (Raises (HTTPException 500
                                ("Error processing question: "
                                   ++ str 500
                                        "Failed to fetch messages from the API"))),
                st', tr, []))
    by (intros str; unfold ask_question; rewrite Hbody; reflexivity).
  split; [|split].
  - rewrite Hask. reflexivity.
  - exists "Error processing question: 500: ". reflexivity.
  - intros str. split; [apply Hbody | apply Hask].
Qed.

Lemma empty_fetch_answers_500_witness :
  ask_question starlette_str (Some (Examples.fixed_client "No."))
    Examples.world_empty 3 {| question := "Does user X own a car?" |}
    initial_state
  = (Done (Raises (HTTPException 500
                     "Error processing question: 500: Failed to fetch messages from the API")),
     {| _messages_cache := Some []; _cache_timestamp := 1001 |},
     [paged_request 1], []).
Proof.
  apply (proj1 (empty_fetch_answers_500
                  (Some (Examples.fixed_client "No."))
                  Examples.world_empty 3
                  {| question := "Does user X own a car?" |}
                  initial_state
                  {| _messages_cache := Some [];
                     _cache_timestamp := 1001 |}
                  [paged_request 1] eq_refl)).
Defined.

(** ** Further properties of the loop *)

Section SweepBounds.

Variable respond : request -> result page_data.

Lemma sweep_runs_until_failure (j : nat) :
  forall (k fuel : nat),
    (forall p, (k < p <= k + j)%nat -> continues respond p) ->
    fails respond (S (k + j)) ->
    (1 <= k + j)%nat ->
    (j < fuel)%nat ->
    sweep respond fuel (Z.of_nat (S k)) (collected respond k)
    = (Done (Returns (collected respond (k + j))),
       map (fun p => paged_request (Z.of_nat p)) (seq (S k) (S j))).
Proof.
  induction j as [|j IH]; intros k fuel Hgo Hfail Hpos Hfuel;
    (destruct fuel as [|fuel]; [lia|]).
  - rewrite Nat.add_0_r in *. apply sweep_fail_later; assumption.
  - rewrite sweep_continue by (apply Hgo; lia).
    rewrite (IH (S k) fuel).
    + replace (S k + j)%nat with (k + S j)%nat by lia. reflexivity.
    + intros p Hp. apply Hgo. lia.
    + replace (S k + j)%nat with (k + S j)%nat by lia. exact Hfail.
    + lia.
    + lia.
Qed.

Lemma sweep_runs_until_crash (j : nat) :
  forall (k fuel : nat) (e : exn),
    (forall p, (k < p <= k + j)%nat -> continues respond p) ->
    respond (paged_request (Z.of_nat (S (k + j)))) = Raises e ->
    is_transport_error e = false ->
    (j < fuel)%nat ->
    sweep respond fuel (Z.of_nat (S k)) (collected respond k)
    = (Done (Raises e),
       map (fun p => paged_request (Z.of_nat p)) (seq (S k) (S j))).
Proof.
  induction j as [|j IH]; intros k fuel e Hgo Hraise He Hfuel;
    (destruct fuel as [|fuel]; [lia|]).
  - rewrite Nat.add_0_r in *. rewrite sweep_unfold, Hraise.
    destruct e; [discriminate He | reflexivity | reflexivity].
  - rewrite sweep_continue by (apply Hgo; lia).
    rewrite (IH (S k) fuel e).
    + reflexivity.
    + intros p Hp. apply Hgo. lia.
    + replace (S k + j)%nat with (k + S j)%nat by lia. exact Hraise.
    + exact He.
    + lia.
Qed.

Lemma sweep_never_ends (fuel : nat) :
  forall k : nat,
    (forall p, (k < p)%nat -> continues respond p) ->
    sweep respond fuel (Z.of_nat (S k)) (collected respond k)
    = (OutOfFuel,
       map (fun p => paged_request (Z.of_nat p)) (seq (S k) fuel)).
Proof.
  induction fuel as [|fuel IH]; intros k Hgo; [reflexivity|].
  rewrite sweep_continue by (apply Hgo; lia).
  rewrite (IH (S k)) by (intros p Hp; apply Hgo; lia).
  reflexivity.
Qed.

Lemma sweep_trace_shape (fuel : nat) :
  forall (k : nat) (acc : list Message) r tr,
    sweep respond fuel (Z.of_nat (S k)) acc = (r, tr) ->
    (exists n, tr = map (fun p => paged_request (Z.of_nat p)) (seq (S k) n))
    \/ (k = 0%nat /\ tr = [paged_request 1; plain_request]).
Proof.
  induction fuel as [|fuel IH]; intros k acc r tr Hrun.
  - injection Hrun as _ <-. left. exists 0%nat. reflexivity.
  - assert (Hone : exists n,
               [paged_request (Z.of_nat (S k))]
               = map (fun p => paged_request (Z.of_nat p)) (seq (S k) n))
      by (exists 1%nat; reflexivity).
    rewrite sweep_unfold in Hrun.
    destruct (respond (paged_request (Z.of_nat (S k))))
      as [data|[msg|sc d|msg]].
    + destruct (is_empty _); [injection Hrun as _ <-; auto|].
      destruct (_ >=? _); [injection Hrun as _ <-; auto|].
      destruct (sweep respond fuel _ _) as [r' tr'] eqn:Hrec.
      injection Hrun as _ <-.
      replace (Z.of_nat (S k) + 1) with (Z.of_nat (S (S k))) in Hrec by lia.
      destruct (IH _ _ _ _ Hrec) as [(n & ->) | (Hk & _)]; [|discriminate Hk].
      left. exists (S n). reflexivity.
    + destruct (Z.of_nat (S k) =? 1) eqn:Hp.
      * apply Z.eqb_eq in Hp. assert (k = 0)%nat as -> by lia.
        right. split; [reflexivity|].
        destruct (respond plain_request); injection Hrun as _ <-; reflexivity.
      * injection Hrun as _ <-. auto.
    + injection Hrun as _ <-. auto.
    + injection Hrun as _ <-. auto.
Qed.

(** With every total at most [T], the loop ends before the fuel does, and
    issues at most [max (T - count) 1 + 1] requests. *)
Lemma sweep_ends_under_bounded_totals (T : Z) :
  (forall rq data, respond rq = Returns data -> get_total data <= T) ->
  forall (fuel : nat) (page : Z) (acc : list Message),
    T < Z.of_nat (length acc) + Z.of_nat fuel ->
    (0 < fuel)%nat ->
    exists r tr,
      sweep respond fuel page acc = (Done r, tr)
      /\ Z.of_nat (length tr) <= Z.max (T - Z.of_nat (length acc)) 1 + 1.
Proof.
  intros Hbound. induction fuel as [|fuel IH]; intros page acc Hfuel Hpos;
    [lia|].
  rewrite sweep_unfold.
  destruct (respond (paged_request page)) as [data|[msg|sc d|msg]] eqn:Hd.
  - destruct (is_empty (get_items data)) eqn:He;
      [eexists _, _; split; [reflexivity | simpl; lia]|].
    destruct (_ >=? _) eqn:Hge;
      [eexists _, _; split; [reflexivity | simpl; lia]|].
    rewrite Z.geb_leb in Hge. apply Z.leb_gt in Hge.
    pose proof (Hbound _ _ Hd) as HT.
    assert (Hlen : Z.of_nat (length (acc ++ get_items data))
                   >= Z.of_nat (length acc) + 1).
    { rewrite length_app. apply is_empty_false in He.
      destruct (get_items data); [contradiction | simpl; lia]. }
    destruct (IH (page + 1) (acc ++ get_items data)%list) as (r & tr & -> & Hn);
      [lia | lia |].
    eexists _, _. split; [reflexivity|]. simpl length. lia.
  - destruct (page =? 1).
    + destruct (respond plain_request);
        (eexists _, _; split; [reflexivity | simpl; lia]).
    + eexists _, _; split; [reflexivity | simpl; lia].
  - eexists _, _; split; [reflexivity | simpl; lia].
  - eexists _, _; split; [reflexivity | simpl; lia].
Qed.

End SweepBounds.

(** ** Further properties of the fetcher *)

Lemma page_requests_length (n : nat) : length (page_requests n) = n.
Proof. unfold page_requests. rewrite length_map, length_seq. reflexivity. Qed.

Lemma endless_collected_length (p : nat) :
  length (collected Scenarios.source_endless p) = p.
Proof.
  induction p as [|p IH]; [reflexivity|].
  cbn [collected]. rewrite length_app, IH. unfold page_items.
  cbn. lia.
Qed.

Lemma endless_continues (p : nat) :
  continues Scenarios.source_endless p.
Proof.
  eexists. split; [reflexivity|]. split.
  - apply is_empty_false. reflexivity.
  - rewrite endless_collected_length. cbn. lia.
Qed.

Lemma midfail_first_page_continues :
  continues Examples.source_midfail 1.
Proof.
  eexists. split; [reflexivity|]. split.
  - apply is_empty_false. reflexivity.
  - vm_compute. reflexivity.
Qed.

Lemma crash_first_page_continues :
  continues Scenarios.source_crash 1.
Proof.
  eexists. split; [reflexivity|]. split.
  - apply is_empty_false. reflexivity.
  - vm_compute. reflexivity.
Qed.

Lemma source_250_total (rq : request) (data : page_data) :
  Examples.source_250 rq = Returns data -> get_total data <= 250.
Proof.
  unfold Examples.source_250.
  destruct (params rq) as [|[k1 page] [|[k2 size] [|third rest]]];
    try discriminate.
  intros H. injection H as <-. cbn. lia.
Qed.

(** X1: when no response of the source reports a total above [T], a fetch
    with more than [T] iterations allowed comes to an end, returning or
    raising, after at most [max T 1 + 1] requests. *)
Theorem fetch_ends_under_bounded_totals
    (w : world) (T : Z) (fuel : nat) (use_cache : bool) (st : cache_state) :
  (forall rq data, respond w rq = Returns data -> get_total data <= T) ->
  T < Z.of_nat fuel ->
  (0 < fuel)%nat ->
  exists r st' tr,
    fetch_all_messages w fuel use_cache st = (Done r, st', tr)
    /\ Z.of_nat (length tr) <= Z.max T 1 + 1.
Proof.
  intros Hbound Hfuel Hpos. unfold fetch_all_messages.
  destruct (cache_lookup w use_cache st) as [cached|].
  - eexists _, _, _. split; [reflexivity | simpl; lia].
  - destruct (sweep_ends_under_bounded_totals (respond w) T Hbound fuel 1 [])
      as (r & tr & -> & Hn); [simpl; lia | exact Hpos |].
    simpl length in Hn. rewrite Z.sub_0_r in Hn.
    destruct r as [msgs|e]; eexists _, _, _; (split; [reflexivity | exact Hn]).
Qed.

Lemma fetch_ends_under_bounded_totals_witness :
  exists r st' tr,
    fetch_all_messages Examples.world_250 251 false initial_state
    = (Done r, st', tr)
    /\ Z.of_nat (length tr) <= Z.max 250 1 + 1.
Proof.
  apply (fetch_ends_under_bounded_totals Examples.world_250 250 251 false
           initial_state).
  - exact source_250_total.
  - lia.
  - lia.
Defined.

(** X2: the loop has no bound of its own: when every page has items and
    reports a total above the count reached, a fetch that misses the cache
    has, after any number [n] of iterations, requested pages 1 to [n], not
    returned, and not touched the cache. *)
Theorem fetch_runs_on_while_pages_continue
    (w : world) (n : nat) (use_cache : bool) (st : cache_state) :
  cache_lookup w use_cache st = None ->
  (forall p, (1 <= p)%nat -> continues (respond w) p) ->
  fetch_all_messages w n use_cache st = (OutOfFuel, st, page_requests n).
Proof.
  intros Hmiss Hgo. rewrite (fetch_miss _ _ _ _ Hmiss).
  change 1 with (Z.of_nat 1) at 1.
  change (@nil Message) with (collected (respond w) 0).
  rewrite sweep_never_ends by (intros p Hp; apply Hgo; lia).
  reflexivity.
Qed.

Lemma fetch_runs_on_while_pages_continue_witness :
  fetch_all_messages Scenarios.world_endless 40 true initial_state
  = (OutOfFuel, initial_state, page_requests 40).
Proof.
  apply (fetch_runs_on_while_pages_continue Scenarios.world_endless 40 true
           initial_state).
  - reflexivity.
  - intros p _. apply endless_continues.
Defined.

(** X3: the requests of a fetch are the pages 1, 2, ..., n in this order,
    none skipped and none repeated, or page 1 followed by the one request
    without parameters; each goes to [MESSAGES_API_URL] with a timeout of 30
    seconds. *)
Theorem fetch_requests_are_consecutive_pages
    (w : world) (fuel : nat) (use_cache : bool) (st : cache_state)
    (r : outcome (list Message)) (st' : cache_state) (tr : list request) :
  fetch_all_messages w fuel use_cache st = (r, st', tr) ->
  ((exists n, tr = page_requests n)
   \/ tr = [paged_request 1; plain_request])
  /\ Forall (fun rq => url rq = MESSAGES_API_URL /\ timeout rq = 30) tr.
Proof.
  intros Hfetch.
  assert (Hshape : (exists n, tr = page_requests n)
                   \/ tr = [paged_request 1; plain_request]).
  { unfold fetch_all_messages in Hfetch.
    destruct (cache_lookup w use_cache st) as [cached|].
    - injection Hfetch as _ _ <-. left. exists 0%nat. reflexivity.
    - destruct (sweep (respond w) fuel 1 []) as [r0 tr0] eqn:Hrun.
      assert (tr = tr0) as ->
        by (destruct r0 as [[msgs|e]|]; injection Hfetch as _ _ <-;
            reflexivity).
      change 1 with (Z.of_nat 1) in Hrun at 1.
      destruct (sweep_trace_shape (respond w) fuel 0 [] r0 tr0 Hrun)
        as [(n & ->) | (_ & ->)]; [left; exists n; reflexivity | right; reflexivity]. }
  split; [exact Hshape|].
  destruct Hshape as [(n & ->) | ->].
  - unfold page_requests. apply List.Forall_forall. intros rq Hin.
    apply in_map_iff in Hin. destruct Hin as (p & <- & _). split; reflexivity.
  - repeat constructor.
Qed.

Lemma fetch_requests_are_consecutive_pages_witness :
  ((exists n, [paged_request 1; paged_request 2] = page_requests n)
   \/ [paged_request 1; paged_request 2] = [paged_request 1; plain_request])
  /\ Forall (fun rq => url rq = MESSAGES_API_URL /\ timeout rq = 30)
       [paged_request 1; paged_request 2].
Proof.
  apply (fetch_requests_are_consecutive_pages Examples.world_midfail 5 true
           initial_state (Done (Returns [Examples.member_message 0]))
           {| _messages_cache := Some [Examples.member_message 0];
              _cache_timestamp := 1031 |}
           [paged_request 1; paged_request 2]).
  reflexivity.
Defined.

(** X4: when pages 1 to [n] go on and page [n + 1] fails with a transport
    error, [n] at least 1, the fetch does not raise and does not fall back:
    it returns the items of pages 1 to [n], stores them in the cache, and
    has requested pages 1 to [n + 1] and nothing else. *)
Theorem later_page_failure_returns_prefix
    (w : world) (fuel : nat) (use_cache : bool) (st : cache_state) (n : nat) :
  cache_lookup w use_cache st = None ->
  partial_sweep (respond w) n ->
  (n < fuel)%nat ->
  fetch_all_messages w fuel use_cache st
  = (Done (Returns (collected (respond w) n)),
     {| _messages_cache := Some (collected (respond w) n);
        _cache_timestamp := clock_store w |},
     page_requests (S n)).
Proof.
  intros Hmiss (Hn & Hgo & Hfail) Hfuel.
  rewrite (fetch_miss _ _ _ _ Hmiss).
  change 1 with (Z.of_nat 1) at 1.
  change (@nil Message) with (collected (respond w) 0).
  rewrite (sweep_runs_until_failure (respond w) n 0 fuel); try assumption.
  reflexivity.
Qed.

Lemma later_page_failure_returns_prefix_witness :
  fetch_all_messages Examples.world_midfail 2 false
    Examples.state_cached_fresh
  = (Done (Returns (collected Examples.source_midfail 1)),
     {| _messages_cache := Some (collected Examples.source_midfail 1);
        _cache_timestamp := 1031 |},
     page_requests 2).
Proof.
  apply (later_page_failure_returns_prefix Examples.world_midfail 2 false
           Examples.state_cached_fresh 1).
  - reflexivity.
  - split; [lia|]. split.
    + intros p Hp. assert (p = 1%nat) as -> by lia.
      exact midfail_first_page_continues.
    + eexists. reflexivity.
  - lia.
Defined.

(** X5: an exception that is not a transport error is not caught, on any
    page, the first included: when pages 1 to [n] go on and page [n + 1]
    raises it, the fetch raises it, makes no request without parameters,
    and leaves the cache as it was. *)
Theorem other_exception_leaves_fetch
    (w : world) (fuel : nat) (use_cache : bool) (st : cache_state) (n : nat)
    (e : exn) :
  cache_lookup w use_cache st = None ->
  (forall p, (1 <= p <= n)%nat -> continues (respond w) p) ->
  respond w (paged_request (Z.of_nat (S n))) = Raises e ->
  is_transport_error e = false ->
  (n < fuel)%nat ->
  fetch_all_messages w fuel use_cache st
  = (Done (Raises e), st, page_requests (S n)).
Proof.
  intros Hmiss Hgo Hraise He Hfuel.
  rewrite (fetch_miss _ _ _ _ Hmiss).
  change 1 with (Z.of_nat 1) at 1.
  change (@nil Message) with (collected (respond w) 0).
  rewrite (sweep_runs_until_crash (respond w) n 0 fuel e); try assumption.
  reflexivity.
Qed.

Lemma other_exception_leaves_fetch_witness :
  fetch_all_messages Scenarios.world_crash 3 true Examples.state_cached_stale
  = (Done (Raises (OtherException "'list' object has no attribute 'get'")),
     Examples.state_cached_stale, page_requests 2).
Proof.
  apply (other_exception_leaves_fetch Scenarios.world_crash 3 true
           Examples.state_cached_stale 1
           (OtherException "'list' object has no attribute 'get'")).
  - reflexivity.
  - intros p Hp. assert (p = 1%nat) as -> by lia.
    exact crash_first_page_continues.
  - reflexivity.
  - reflexivity.
  - lia.
Defined.

(** X6: what a fetch stores, the next one serves: after a call that went to
    the source and returned a sequence, a call with [use_cache] true made
    less than 300 seconds after the store returns that same sequence, issues
    no request and leaves the cache as it is; from 300 seconds on, the cache
    no longer answers. *)
Theorem stored_sequence_is_served_until_expiry
    (w w2 : world) (fuel fuel2 : nat) (use_cache : bool)
    (st st' : cache_state) (msgs : list Message) (tr : list request) :
  cache_lookup w use_cache st = None ->
  fetch_all_messages w fuel use_cache st = (Done (Returns msgs), st', tr) ->
  (clock_check w2 - clock_store w < CACHE_TTL ->
   fetch_all_messages w2 fuel2 true st' = (Done (Returns msgs), st', []))
  /\ (clock_check w2 - clock_store w >= CACHE_TTL ->
      cache_lookup w2 true st' = None).
Proof.
  intros Hmiss Hfetch.
  rewrite (fetch_miss _ _ _ _ Hmiss) in Hfetch.
  destruct (sweep (respond w) fuel 1 []) as [r0 tr0].
  destruct r0 as [[all_messages|e]|]; try discriminate Hfetch.
  injection Hfetch as -> <- _.
  split; intros Hage.
  - unfold fetch_all_messages.
    rewrite (cache_lookup_hit w2 (CacheState (Some msgs) (clock_store w))
               msgs eq_refl Hage).
    reflexivity.
  - apply cache_lookup_miss. right; right. exact Hage.
Qed.

Lemma stored_sequence_is_served_until_expiry_witness :
  fetch_all_messages Scenarios.world_later 9 true
    {| _messages_cache := Some (map Examples.member_message (seq 0 250));
       _cache_timestamp := 1003 |}
  = (Done (Returns (map Examples.member_message (seq 0 250))),
     {| _messages_cache := Some (map Examples.member_message (seq 0 250));
        _cache_timestamp := 1003 |},
     []).
Proof.
  apply (proj1 (stored_sequence_is_served_until_expiry Examples.world_250
                  Scenarios.world_later 3 9 true initial_state
                  {| _messages_cache :=
                       Some (map Examples.member_message (seq 0 250));
                     _cache_timestamp := 1003 |}
                  (map Examples.member_message (seq 0 250))
                  [paged_request 1; paged_request 2; paged_request 3]
                  eq_refl eq_refl)).
  vm_compute. reflexivity.
Defined.

(** ** Further properties of the POST /ask handler *)

(** X7: whatever the source, the client and the cache, an exception that
    leaves [ask_question] is an HTTPException with status 500: no other
    exception and no other status comes out of the handler. *)
Theorem ask_question_raises_only_500
    (str : Z -> string -> string) (client : option Client) (w : world)
    (fuel : nat) (rq : QuestionRequest) (st st' : cache_state) (e : exn)
    (tr : list request) (ctr : list chat_request) :
  ask_question str client w fuel rq st = (Done (Raises e), st', tr, ctr) ->
  exists detail, e = HTTPException 500 detail.
Proof.
  unfold ask_question.
  destruct (ask_body str client w fuel rq st) as [[[o st0] tr0] ctr0].
  destruct o as [[a|[msg|sc d|msg]]|]; intros H;
    try discriminate H; injection H as <- _ _ _; eauto.
Qed.

Lemma ask_question_raises_only_500_witness :
  exists detail,
    HTTPException 500 "Error fetching messages: 503 Server Error"
    = HTTPException 500 detail.
Proof.
  apply (ask_question_raises_only_500 Examples.str_plain None
           Examples.world_down 2 Scenarios.ask_car initial_state initial_state
           (HTTPException 500 "Error fetching messages: 503 Server Error")
           [paged_request 1; plain_request] []).
  reflexivity.
Defined.

(** X8: when the fetch raises, the handler answers 500 and sends nothing to
    the completion service; the detail is "Error fetching messages: " and
    the text of the exception for a transport error, and "Error processing
    question: " and the text of the exception for any other. *)
Theorem ask_question_reports_fetch_exception
    (str : Z -> string -> string) (client : option Client) (w : world)
    (fuel : nat) (rq : QuestionRequest) (st st' : cache_state) (e : exn)
    (tr : list request) :
  fetch_all_messages w fuel true st = (Done (Raises e), st', tr) ->
  ask_question str client w fuel rq st
  = (Done (Raises (HTTPException 500
                     ((if is_transport_error e
                       then "Error fetching messages: "
                       else "Error processing question: ")
                      ++ str_exn str e))),
     st', tr, []).
Proof.
  intros Hfetch. unfold ask_question, ask_body. rewrite Hfetch.
  destruct e; reflexivity.
Qed.

Lemma ask_question_reports_fetch_exception_witness :
  ask_question Examples.str_plain (Some (Examples.fixed_client "No."))
    Examples.world_down 2 Scenarios.ask_car Examples.state_cached_stale
  = (Done (Raises (HTTPException 500
                     "Error fetching messages: 503 Server Error")),
     Examples.state_cached_stale, [paged_request 1; plain_request], [])
  /\ ask_question Examples.str_plain (Some (Examples.fixed_client "No."))
       Scenarios.world_crash 2 Scenarios.ask_car initial_state
     = (Done (Raises (HTTPException 500
                        "Error processing question: 'list' object has no attribute 'get'")),
        initial_state, [paged_request 1; paged_request 2], []).
Proof.
  split.
  - apply (ask_question_reports_fetch_exception Examples.str_plain
             (Some (Examples.fixed_client "No.")) Examples.world_down 2
             Scenarios.ask_car Examples.state_cached_stale
             Examples.state_cached_stale
             (RequestException "503 Server Error")
             [paged_request 1; plain_request]).
    reflexivity.
  - apply (ask_question_reports_fetch_exception Examples.str_plain
             (Some (Examples.fixed_client "No.")) Scenarios.world_crash 2
             Scenarios.ask_car initial_state initial_state
             (OtherException "'list' object has no attribute 'get'")
             [paged_request 1; paged_request 2]).
    reflexivity.
Defined.

(** X9: when the fetch returns at least one message, the handler returns an
    AnswerResponse, whatever the completion service does: the answer is the
    string of [answer_question], so a missing client or a failing completion
    shows in the answer text and never as an HTTP error. *)
Theorem ask_question_answers_when_messages_exist
    (str : Z -> string -> string) (client : option Client) (w : world)
    (fuel : nat) (rq : QuestionRequest) (st st' : cache_state)
    (msgs : list Message) (tr : list request) :
  fetch_all_messages w fuel true st = (Done (Returns msgs), st', tr) ->
  msgs <> [] ->
  exists a,
    ask_question str client w fuel rq st
    = (Done (Returns {| answer := a |}), st', tr,
       snd (answer_question str client (question rq) msgs))
    /\ fst (answer_question str client (question rq) msgs) = Returns a
    /\ (client = None -> a = not_configured_message)
    /\ (forall create e,
          client = Some create ->
          call_completion create
            (build_prompt (truncate_context (format_context msgs))
               (question rq)) = Raises e ->
          a = "Error processing question: " ++ str_exn str e).
Proof.
  intros Hfetch Hmsgs. apply is_empty_false in Hmsgs.
  unfold ask_question, ask_body. rewrite Hfetch, Hmsgs.
  unfold answer_question. destruct client as [create|].
  - destruct (call_completion create _) as [a|e] eqn:Hcall.
    + exists a. repeat split; [discriminate|].
      intros create' e' [= <-] He. congruence.
    + eexists. repeat split; [discriminate|].
      intros create' e' [= <-] He. congruence.
  - exists not_configured_message. repeat split. intros create e H.
    discriminate H.
Qed.

Lemma ask_question_answers_when_messages_exist_witness :
  exists a,
    ask_question Examples.str_plain
      (Some (Examples.failing_client "Connection error."))
      Examples.world_no_total 1 Scenarios.ask_car initial_state
    = (Done (Returns {| answer := a |}),
       {| _messages_cache :=
            Some [Examples.member_message 0; Examples.member_message 1];
          _cache_timestamp := 1001 |},
       [paged_request 1],
       snd (answer_question Examples.str_plain
              (Some (Examples.failing_client "Connection error."))
              (question Scenarios.ask_car)
              [Examples.member_message 0; Examples.member_message 1]))
    /\ a = "Error processing question: Connection error.".
Proof.
  destruct (ask_question_answers_when_messages_exist Examples.str_plain
              (Some (Examples.failing_client "Connection error."))
              Examples.world_no_total 1 Scenarios.ask_car initial_state
              {| _messages_cache :=
                   Some [Examples.member_message 0; Examples.member_message 1];
                 _cache_timestamp := 1001 |}
              [Examples.member_message 0; Examples.member_message 1]
              [paged_request 1] eq_refl)
    as (a & Hask & _ & _ & Hfail); [discriminate|].
  exists a. split; [exact Hask|].
  apply (Hfail (Examples.failing_client "Connection error.")
           (OtherException "Connection error.")); reflexivity.
Defined.

(** X10: while the cache holds the empty sequence and is younger than 300
    seconds, the handler answers 500 without a single request, to the source
    or to the completion service, and the cache stays as it is. *)
Theorem ask_question_fails_on_cached_empty
    (str : Z -> string -> string) (client : option Client) (w : world)
    (fuel : nat) (rq : QuestionRequest) (st : cache_state) :
  _messages_cache st = Some [] ->
  clock_check w - _cache_timestamp st < CACHE_TTL ->
  ask_question str client w fuel rq st
  = (Done (Raises (HTTPException 500
                     ("Error processing question: "
                        ++ str 500 "Failed to fetch messages from the API"))),
     st, [], []).
Proof.
  intros Hc Hfresh. unfold ask_question, ask_body, fetch_all_messages.
  rewrite (cache_lookup_hit w st [] Hc Hfresh). reflexivity.
Qed.

Lemma ask_question_fails_on_cached_empty_witness :
  ask_question Examples.str_plain (Some (Examples.fixed_client "No."))
    Examples.world_250 3 Scenarios.ask_car Examples.state_cached_empty
  = (Done (Raises (HTTPException 500
                     "Error processing question: Failed to fetch messages from the API")),
     Examples.state_cached_empty, [], []).
Proof.
  apply (ask_question_fails_on_cached_empty Examples.str_plain
           (Some (Examples.fixed_client "No.")) Examples.world_250 3
           Scenarios.ask_car Examples.state_cached_empty).
  - reflexivity.
  - vm_compute. reflexivity.
Defined.

(** ** Further properties of the answer synthesizer *)

Section StringFacts.

Lemma append_cons (c : ascii) (a b : string) :
  String c a ++ b = String c (a ++ b).
Proof. reflexivity. Qed.

Lemma append_empty_l (b : string) : EmptyString ++ b = b.
Proof. reflexivity. Qed.

Lemma append_empty_r (a : string) : a ++ EmptyString = a.
Proof.
  induction a as [|c a IH]; [reflexivity|].
  rewrite append_cons, IH. reflexivity.
Qed.

Lemma append_assoc (a b c : string) : (a ++ b) ++ c = a ++ (b ++ c).
Proof.
  induction a as [|x a IH]; [reflexivity|].
  rewrite !append_cons, IH. reflexivity.
Qed.

Lemma len_append (a b : string) :
  PyStr.len (a ++ b) = PyStr.len a + PyStr.len b.
Proof.
  unfold PyStr.len. induction a as [|x a IH]; [reflexivity|].
  rewrite append_cons. cbn [String.length]. lia.
Qed.

Lemma len_nonneg (a : string) : 0 <= PyStr.len a.
Proof. unfold PyStr.len. lia. Qed.

(** A tail of [X ++ b] at least as long as [b] ends with [b]. *)
Lemma long_tail_keeps_suffix (d : string) :
  forall X b k : string,
    X ++ b = d ++ k ->
    PyStr.len b <= PyStr.len k ->
    exists pre, k = pre ++ b.
Proof.
  induction d as [|c d IH]; intros X b k Heq Hlen.
  - exists X. rewrite append_empty_l in Heq. congruence.
  - destruct X as [|x X].
    + rewrite append_empty_l in Heq. subst b.
      rewrite append_cons in Hlen. rewrite <- append_cons, len_append in Hlen.
      pose proof (len_nonneg d). unfold PyStr.len in *.
      cbn [String.length] in Hlen. lia.
    + rewrite !append_cons in Heq. injection Heq as _ Heq.
      exact (IH X b k Heq Hlen).
Qed.

Lemma concat_app (sep : string) (l1 l2 : list string) :
  l1 <> [] -> l2 <> [] ->
  String.concat sep (l1 ++ l2)
  = String.concat sep l1 ++ sep ++ String.concat sep l2.
Proof.
  intros H1 H2. induction l1 as [|x l1 IH]; [contradiction|].
  destruct l1 as [|y l1].
  - destruct l2 as [|z l2]; [contradiction | reflexivity].
  - change (x ++ sep ++ String.concat sep ((y :: l1) ++ l2)
            = (x ++ sep ++ String.concat sep (y :: l1))
                ++ sep ++ String.concat sep l2).
    rewrite IH by discriminate.
    rewrite !append_assoc. reflexivity.
Qed.

Lemma truncate_context_length (context : string) :
  PyStr.len (truncate_context context)
  <= max_context_length + PyStr.len truncation_marker.
Proof.
  unfold truncate_context.
  destruct (PyStr.len context >? max_context_length) eqn:Hgt.
  - apply Z.gtb_lt in Hgt.
    destruct (slice_from_suffix max_context_length context)
      as (dropped & _ & Hk & _); [reflexivity | lia |].
    rewrite len_append, Hk. lia.
  - pose proof (len_nonneg truncation_marker).
    rewrite Z.gtb_ltb in Hgt. apply Z.ltb_ge in Hgt. lia.
Qed.

End StringFacts.

(** X11: the prompt sent to the completion service is bounded whatever the
    number and the size of the messages: one request is sent, and its
    prompt is at most 100,902 characters longer than the question. *)
Theorem prompt_length_is_bounded
    (str : Z -> string -> string) (create : Client) (question : string)
    (msgs : list Message) :
  exists prompt,
    snd (answer_question str (Some create) question msgs)
    = [make_request prompt]
    /\ PyStr.len prompt <= prompt_overhead + PyStr.len question
    /\ prompt_overhead = 100902.
Proof.
  eexists. split; [apply answer_question_submits|].
  split; [|vm_compute; reflexivity].
  unfold build_prompt, prompt_overhead. rewrite !len_append.
  pose proof (truncate_context_length (format_context msgs)). lia.
Qed.

(** X12: the context of two non-empty sequences of messages put end to end
    is the two contexts with one blank line between them: the blocks keep
    the order of the messages and nothing else is added. *)
Theorem format_context_app (a b : list Message) :
  a <> [] -> b <> [] ->
  format_context (a ++ b)%list
  = format_context a ++ (PyStr.nl ++ PyStr.nl) ++ format_context b.
Proof.
  intros Ha Hb. unfold format_context, PyStr.join.
  rewrite map_app. apply concat_app.
  - destruct a; [contradiction | discriminate].
  - destruct b; [contradiction | discriminate].
Qed.

Lemma format_context_app_witness :
  format_context (Examples.short_history ++ [Examples.member_message 2])%list
  = format_context Examples.short_history
      ++ (PyStr.nl ++ PyStr.nl)
      ++ format_context [Examples.member_message 2].
Proof.
  apply (format_context_app Examples.short_history
           [Examples.member_message 2]); discriminate.
Defined.

(** X13: truncation never cuts into the latest message when its block fits:
    if the block of the last message has at most 100,000 characters, the
    context submitted contains that block whole, at its end or followed by
    the truncation marker only. *)
Theorem latest_message_survives_truncation
    (earlier : list Message) (latest : Message) :
  PyStr.len (format_message latest) <= max_context_length ->
  exists pre post,
    truncate_context (format_context (earlier ++ [latest])%list)
    = pre ++ format_message latest ++ post
    /\ (post = EmptyString \/ post = truncation_marker).
Proof.
  intros Hfit.
  assert (Hctx : exists X,
             format_context (earlier ++ [latest])%list
             = X ++ format_message latest).
  { destruct earlier as [|m earlier].
    - exists EmptyString. reflexivity.
    - rewrite format_context_app by discriminate.
      exists (format_context (m :: earlier) ++ PyStr.nl ++ PyStr.nl).
      rewrite !append_assoc. reflexivity. }
  destruct Hctx as (X & Hctx). rewrite Hctx. unfold truncate_context.
  destruct (PyStr.len (X ++ format_message latest) >? max_context_length)
    eqn:Hgt.
  - apply Z.gtb_lt in Hgt.
    destruct (slice_from_suffix max_context_length
                (X ++ format_message latest))
      as (dropped & Hsplit & Hk & _); [reflexivity | lia |].
    destruct (long_tail_keeps_suffix dropped X (format_message latest)
                (PyStr.slice_from (- max_context_length)
                   (X ++ format_message latest)) Hsplit)
      as (pre & Hpre); [lia|].
    exists pre, truncation_marker. rewrite Hpre at 1.
    rewrite append_assoc. auto.
  - exists X, EmptyString. rewrite append_empty_r. auto.
Qed.

Lemma latest_message_survives_truncation_witness :
  exists pre post,
    truncate_context
      (format_context (Examples.long_history ++ Examples.short_history)%list)
    = pre ++ format_context Examples.short_history ++ post
    /\ (post = EmptyString \/ post = truncation_marker).
Proof.
  apply (latest_message_survives_truncation Examples.long_history
           {[ "user_name" := "Ada"; "timestamp" := "2024-01-01";
              "message" := "I own one car." ]}).
  vm_compute. discriminate.
Defined.

Section StripFacts.

Import PyStr.






End StripFacts.




